(** * Date range picker: range model and selection controller

    A shallow embedding of [registry/new-york/ui/date-range-picker.tsx]:
    the range predicates [isValidDateRange] and [isRangeEqual], the label
    function [formatDateRange], and the event handlers of the
    [DateRangePicker] component, with the part of the JavaScript [Date]
    object and of date-fns that they call. *)

From Stdlib Require Import ZArith List String Ascii Bool Lia.
From Stdlib Require Import Numbers.DecimalString Numbers.DecimalN.
Import ListNotations.

Open Scope string_scope.
Open Scope Z_scope.

(** ** The JavaScript [Date] object

    A [Date] wraps a time value: [NaN] (an "Invalid Date") or an integral
    number of milliseconds since the epoch. *)

Inductive Date : Type :=
| InvalidDate
| TimeValue (tv : Z).   (* within 8.64e15 of the epoch in an engine *)

(** A JavaScript number as the code meets it: the result of [getTime()]. *)
Inductive Number : Type :=
| NaN
| Finite (n : Z).

Definition getTime (d : Date) : Number :=
  match d with
  | InvalidDate => NaN
  | TimeValue tv => Finite tv
  end.

(** [x === y] on numbers: [NaN] is not equal to itself. *)
Definition strictEquals (x y : Number) : bool :=
  match x, y with
  | Finite a, Finite b => a =? b
  | _, _ => false
  end.

(** [a <= b] on [Date] objects: both are converted to their time values and
    any comparison with [NaN] is false. *)
Definition lessEq (a b : Date) : bool :=
  match getTime a, getTime b with
  | Finite x, Finite y => x <=? y
  | _, _ => false
  end.

(** [a < b] on [Date] objects. *)
Definition lessThan (a b : Date) : bool :=
  match getTime a, getTime b with
  | Finite x, Finite y => x <? y
  | _, _ => false
  end.

(** An object, when there is one, is truthy: [!x] is [negb (defined x)]. *)
Definition defined {A : Type} (x : option A) : bool :=
  match x with
  | Some _ => true
  | None => false
  end.

(** The time zone of the host: the offset, in milliseconds, of local time
    from UTC at a given UTC time value. *)
Class HostTimeZone : Type := LocalTZA : Z -> Z.

#[export] Instance UTC : HostTimeZone := fun _ => 0.

Module ES.

(** Day number and year arithmetic of the ECMAScript specification. *)

Definition msPerDay : Z := 86400000.

Definition Day (t : Z) : Z := t / msPerDay.

Definition TimeWithinDay (t : Z) : Z := t mod msPerDay.

Definition LocalTime `{HostTimeZone} (t : Z) : Z := t + LocalTZA t.

Definition DaysInYear (y : Z) : Z :=
  if negb (y mod 4 =? 0) then 365
  else if negb (y mod 100 =? 0) then 366
  else if negb (y mod 400 =? 0) then 365
  else 366.

Definition DayFromYear (y : Z) : Z :=
  365 * (y - 1970) + (y - 1969) / 4 - (y - 1901) / 100 + (y - 1601) / 400.

Definition TimeFromYear (y : Z) : Z := msPerDay * DayFromYear y.

(** The largest [y] with [DayFromYear y <= d], found from the mean length
    of a Gregorian year (146097 days in 400 years) and one correction. *)
Definition YearFromDay (d : Z) : Z :=
  let y := 1970 + (400 * d) / 146097 in
  if d <? DayFromYear y then y - 1
  else if DayFromYear (y + 1) <=? d then y + 1
  else y.

Definition YearFromTime (t : Z) : Z := YearFromDay (Day t).

Definition InLeapYear (t : Z) : Z :=
  if DaysInYear (YearFromTime t) =? 366 then 1 else 0.

Definition DayWithinYear (t : Z) : Z :=
  Day t - DayFromYear (YearFromTime t).

Definition MonthFromTime (t : Z) : Z :=
  let d := DayWithinYear t in
  let l := InLeapYear t in
  if d <? 31 then 0
  else if d <? 59 + l then 1
  else if d <? 90 + l then 2
  else if d <? 120 + l then 3
  else if d <? 151 + l then 4
  else if d <? 181 + l then 5
  else if d <? 212 + l then 6
  else if d <? 243 + l then 7
  else if d <? 273 + l then 8
  else if d <? 304 + l then 9
  else if d <? 334 + l then 10
  else 11.

Definition DateFromTime (t : Z) : Z :=
  let d := DayWithinYear t in
  let l := InLeapYear t in
  match MonthFromTime t with
  | 0 => d + 1
  | 1 => d - 30
  | 2 => d - 58 - l
  | 3 => d - 89 - l
  | 4 => d - 119 - l
  | 5 => d - 150 - l
  | 6 => d - 180 - l
  | 7 => d - 211 - l
  | 8 => d - 242 - l
  | 9 => d - 272 - l
  | 10 => d - 303 - l
  | _ => d - 333 - l
  end.

Definition WeekDay (t : Z) : Z := (Day t + 4) mod 7.

(** Names used by [Date.prototype.toDateString]. *)
Definition weekDayName (w : Z) : string :=
  match w with
  | 0 => "Sun" | 1 => "Mon" | 2 => "Tue" | 3 => "Wed"
  | 4 => "Thu" | 5 => "Fri" | _ => "Sat"
  end.

Definition monthName (m : Z) : string :=
  match m with
  | 0 => "Jan" | 1 => "Feb" | 2 => "Mar" | 3 => "Apr"
  | 4 => "May" | 5 => "Jun" | 6 => "Jul" | 7 => "Aug"
  | 8 => "Sep" | 9 => "Oct" | 10 => "Nov" | _ => "Dec"
  end.

(** The decimal digits of a non-negative integer. *)
Definition decimal (n : Z) : string :=
  NilEmpty.string_of_uint (N.to_uint (Z.to_N n)).

Fixpoint zeros (k : nat) : string :=
  match k with
  | O => ""
  | S k' => String "0" (zeros k')
  end.

(** [String.prototype.padStart(minLength, "0")]. *)
Definition padStart0 (s : string) (minLength : nat) : string :=
  zeros (minLength - String.length s) ++ s.

Definition ToZeroPaddedDecimalString (n : Z) (minLength : nat) : string :=
  padStart0 (decimal n) minLength.

(** Reading a zero-padded decimal string back. *)
Definition parseDecimal (s : string) : option N :=
  option_map N.of_uint (NilEmpty.uint_of_string s).

Definition isDigit (c : ascii) : bool :=
  match NilEmpty.uint_of_string (String c "") with
  | Some _ => true
  | None => false
  end.

Fixpoint digitsOnly (s : string) : bool :=
  match s with
  | "" => true
  | String c s' => isDigit c && digitsOnly s'
  end.

(** The year as [DateString] prints it: a sign for years before 0 and at
    least four digits. *)
Definition yearWithSign (yv : Z) : string :=
  let yearSign := if 0 <=? yv then "" else "-" in
  yearSign ++ ToZeroPaddedDecimalString (Z.abs yv) 4.

(** [DateString(tv)] of the specification, on a local time value. *)
Definition DateString (t : Z) : string :=
  weekDayName (WeekDay t) ++ " " ++
  monthName (MonthFromTime t) ++ " " ++
  ToZeroPaddedDecimalString (DateFromTime t) 2 ++ " " ++
  yearWithSign (YearFromTime t).

End ES.

(** [Date.prototype.toDateString()]: the date portion of the local time. *)
Definition toDateString `{HostTimeZone} (d : Date) : string :=
  match d with
  | InvalidDate => "Invalid Date"
  | TimeValue tv => ES.DateString (ES.LocalTime tv)
  end.

(** The local calendar day a [Date] falls on, time of day dropped; an
    Invalid Date falls on none. *)
Definition calendarDay `{HostTimeZone} (d : Date) : option Z :=
  match d with
  | InvalidDate => None
  | TimeValue tv => Some (ES.Day (ES.LocalTime tv))
  end.

(** ** date-fns *)

Inductive Exception : Type :=
| RangeError (message : string).

(** The outcome of a call that may throw. *)
Inductive Outcome (A : Type) : Type :=
| Returns (a : A)
| Throws (e : Exception).

Arguments Returns {A} a.
Arguments Throws {A} e.

Definition bind {A B : Type} (c : Outcome A) (k : A -> Outcome B) : Outcome B :=
  match c with
  | Returns a => k a
  | Throws e => Throws e
  end.

Notation "x <- c ;; k" := (bind c (fun x => k))
  (at level 61, c at next level, right associativity).

Module DateFns.

(** [isValid(date)]: the time value is not [NaN]. *)
Definition isValid (d : Date) : bool :=
  match getTime d with
  | NaN => false
  | Finite _ => true
  end.

(** [addLeadingZeros(number, targetLength)]. *)
Definition addLeadingZeros (number : Z) (targetLength : nat) : string :=
  let sign := if number <? 0 then "-" else "" in
  (sign ++ ES.padStart0 (ES.decimal (Z.abs number)) targetLength)%string.

(** The format tokens the picker uses, and literal text between them. *)
Inductive Token : Type :=
| LLL                       (* stand-alone month, abbreviated *)
| dd                        (* day of month, two digits *)
| y                         (* calendar year *)
| Literal (text : string).

(** The pattern ["LLL dd, y"] as [format] splits it. *)
Definition LLL_dd_y : list Token := [LLL; Literal " "; dd; Literal ", "; y].

Definition formatToken (t : Z) (tok : Token) : string :=
  match tok with
  | LLL => ES.monthName (ES.MonthFromTime t)
  | dd => addLeadingZeros (ES.DateFromTime t) 2
  | y =>
      let signedYear := ES.YearFromTime t in
      let year := if 0 <? signedYear then signedYear else 1 - signedYear in
      addLeadingZeros year 1
  | Literal text => text
  end.

(** [format(date, formatStr)], in the host's local time. *)
Definition format `{HostTimeZone} (date : Date) (formatStr : list Token)
  : Outcome string :=
  match date with
  | InvalidDate => Throws (RangeError "Invalid time value")
  | TimeValue tv =>
      Returns (String.concat "" (map (formatToken (ES.LocalTime tv)) formatStr))
  end.

End DateFns.

(** ** Range model *)

(** [DateRange] of react-day-picker. *)
Record DateRange : Type := mkRange {
  from : option Date;
  to : option Date
}.

Module PredefinedRange.
Record t : Type := make {
  label : string;
  value : DateRange;
  description : option string
}.
End PredefinedRange.

(** [range?.from] and [range?.to]. *)
Definition from' (range : option DateRange) : option Date :=
  match range with
  | Some r => from r
  | None => None
  end.

Definition to' (range : option DateRange) : option Date :=
  match range with
  | Some r => to r
  | None => None
  end.

Definition isValidDateRange (range : option DateRange) : bool :=
  match from' range, to' range with
  | Some f, Some t => DateFns.isValid f && DateFns.isValid t && lessEq f t
  | _, _ => false
  end.

Definition isRangeEqual `{HostTimeZone} (range1 range2 : option DateRange) : bool :=
  match from' range1, to' range1, from' range2, to' range2 with
  | Some f1, Some t1, Some f2, Some t2 =>
      String.eqb (toDateString f1) (toDateString f2) &&
      String.eqb (toDateString t1) (toDateString t2)
  | _, _, _, _ => false
  end.

(** ** The [DateRangePicker] component *)

(** The props the handlers read, once the defaults are filled in
    ([maxDate] is the time of the render when the caller gives none). *)
Record Props : Type := mkProps {
  value : option DateRange;
  onChange : bool;                  (* whether the caller passed a callback *)
  placeholder : string;
  predefinedRanges : list PredefinedRange.t;
  closeOnClear : bool;
  applyOnPredefinedSelect : bool;
  clearOnSelect : bool;
  minDate : option Date;
  maxDate : option Date
}.

(** The two [useState] cells. *)
Record State : Type := mkState {
  open : bool;
  tempRange : option DateRange
}.

(** What a handler does, in order: state updates queued for the next render
    and calls of the caller's [onChange]. *)
Inductive Effect : Type :=
| SetOpen (newOpen : bool)
| SetTempRange (range : option DateRange)
| OnChange (range : option DateRange).

Definition Handler : Type := list Effect.

Notation "c1 ';;;' c2" := (c1 ++ c2)%list (at level 62, right associativity).

Definition skip : Handler := [].
Definition setOpen (b : bool) : Handler := [SetOpen b].
Definition setTempRange (range : option DateRange) : Handler := [SetTempRange range].

Definition when (b : bool) (h : Handler) : Handler := if b then h else skip.

(** [onChange?.(range)]: nothing happens without a callback. *)
Definition callOnChange (p : Props) (range : option DateRange) : Handler :=
  when (onChange p) [OnChange range].

Section Handlers.

Context `{HostTimeZone}.
Variable p : Props.
Variable s : State.

(** The [useEffect] that follows the [value] prop. *)
Definition syncValue : Handler :=
  setTempRange (value p).

Definition isDateDisabled (date : Date) : bool :=
  if match minDate p with Some lo => lessThan date lo | None => false end
  then true
  else if match maxDate p with Some hi => lessThan hi date | None => false end
  then true
  else false.

Definition handleRangeSelect (range : option DateRange) : Handler :=
  setTempRange range.

Definition handlePredefinedRangeSelect (range : DateRange) : Handler :=
  setTempRange (Some range) ;;;
  when (applyOnPredefinedSelect p)
    (callOnChange p (Some range) ;;; setOpen false).

Definition handleApply : Handler :=
  when (negb (defined (tempRange s)) || isValidDateRange (tempRange s))
    (callOnChange p (tempRange s) ;;; setOpen false).

Definition handleClear : Handler :=
  setTempRange None ;;;
  when (clearOnSelect p)
    (callOnChange p None ;;; when (closeOnClear p) (setOpen false)).

Definition handleOpenChange (newOpen : bool) : Handler :=
  setOpen newOpen ;;;
  when (negb newOpen && negb (applyOnPredefinedSelect p))
    (setTempRange (value p)).

Definition formatDateRange (range : option DateRange) : Outcome string :=
  match from' range with
  | None => Returns (placeholder p)
  | Some f =>
      match to' range with
      | None => DateFns.format f DateFns.LLL_dd_y
      | Some t =>
          if strictEquals (getTime f) (getTime t)
          then DateFns.format f DateFns.LLL_dd_y
          else
            a <- DateFns.format f DateFns.LLL_dd_y ;;
            b <- DateFns.format t DateFns.LLL_dd_y ;;
            Returns (a ++ " - " ++ b)%string
      end
  end.

Definition isRangeSelected (predefinedRange : DateRange) : bool :=
  isRangeEqual (Some predefinedRange) (tempRange s).

(** The [disabled] attributes of the Clear and Apply buttons. *)
Definition clearDisabled : bool :=
  negb (defined (tempRange s)).

Definition applyDisabled : bool :=
  defined (tempRange s) && negb (isValidDateRange (tempRange s)).

(** The mobile [Select]: [onValueChange] looks the chosen label up. *)
Definition handleValueChange (chosen : string) : Handler :=
  match
    find (fun range => String.eqb (PredefinedRange.label range) chosen)
         (predefinedRanges p)
  with
  | Some selectedRange =>
      handlePredefinedRangeSelect (PredefinedRange.value selectedRange)
  | None => skip
  end.

End Handlers.

(** The first render: the popover is closed and the draft is [value]. *)
Definition initialState (p : Props) : State := mkState false (value p).

(** ** Running a handler *)

(** React applies the queued updates in order before the next render. *)
Definition update (s : State) (e : Effect) : State :=
  match e with
  | SetOpen b => mkState b (tempRange s)
  | SetTempRange r => mkState (open s) r
  | OnChange _ => s
  end.

Definition commit (s : State) (h : Handler) : State := fold_left update h s.

(** The arguments [onChange] was called with, in order. *)
Fixpoint emitted (h : Handler) : list (option DateRange) :=
  match h with
  | [] => []
  | OnChange r :: h' => r :: emitted h'
  | _ :: h' => emitted h'
  end.

(** Whether the handler asks the popover to close. *)
Definition requestsClose (h : Handler) : Prop := In (SetOpen false) h.

(** The caller of the usage example, [value={dateRange}] with
    [onChange={setDateRange}]: it keeps the last range it was handed. *)
Definition setDateRange (dateRange : option DateRange) (h : Handler)
  : option DateRange :=
  last (emitted h) dateRange.

(** The user gestures and the external change the component reacts to. *)
Inductive Event : Type :=
| CalendarSelect (range : option DateRange)
| PredefinedClick (index : nat)
| SelectValueChange (chosen : string)
| ApplyClick
| ClearClick
| PopoverOpenChange (newOpen : bool)
| ValueChanged.

Definition handler (p : Props) (s : State) (e : Event) : Handler :=
  match e with
  | CalendarSelect range => handleRangeSelect range
  | PredefinedClick index =>
      match nth_error (predefinedRanges p) index with
      | Some range => handlePredefinedRangeSelect p (PredefinedRange.value range)
      | None => skip
      end
  | SelectValueChange chosen => handleValueChange p chosen
  | ApplyClick => handleApply p s
  | ClearClick => handleClear p
  | PopoverOpenChange newOpen => handleOpenChange p newOpen
  | ValueChanged => syncValue p
  end.

Definition step (p : Props) (s : State) (e : Event)
  : State * list (option DateRange) :=
  (commit s (handler p s e), emitted (handler p s e)).

(** The text ["LLL dd, y"] stands for: abbreviated month, day of the month
    on two digits, a comma and the calendar year. *)
Definition monthDayYear (t : Z) : string :=
  let year := if 0 <? ES.YearFromTime t then ES.YearFromTime t
              else 1 - ES.YearFromTime t in
  ES.monthName (ES.MonthFromTime t) ++ " " ++
  DateFns.addLeadingZeros (ES.DateFromTime t) 2 ++ ", " ++
  DateFns.addLeadingZeros year 1.

(** ** The default shortcuts *)

(** The date-fns functions the default shortcuts are built with, and the
    clock: [newDate k] is what the [k]-th [new Date()] of the list returns,
    in the order the list is evaluated. *)
Class DateLib : Type := {
  startOfDay : Date -> Date;
  endOfDay : Date -> Date;
  subDays : Date -> Z -> Date;
  startOfMonth : Date -> Date;
  endOfMonth : Date -> Date;
  subMonths : Date -> Z -> Date;
  newDate : nat -> Date
}.

Definition defaultPredefinedRanges `{DateLib} : list PredefinedRange.t :=
  [ PredefinedRange.make "Today"
      (mkRange (Some (startOfDay (newDate 0))) (Some (endOfDay (newDate 1))))
      (Some "Select today's date");
    PredefinedRange.make "Yesterday"
      (mkRange (Some (startOfDay (subDays (newDate 2) 1)))
               (Some (endOfDay (subDays (newDate 3) 1))))
      (Some "Select yesterday's date");
    PredefinedRange.make "Last 7 Days"
      (mkRange (Some (subDays (newDate 4) 6)) (Some (newDate 5)))
      (Some "Select the last 7 days");
    PredefinedRange.make "Last 30 Days"
      (mkRange (Some (subDays (newDate 6) 29)) (Some (newDate 7)))
      (Some "Select the last 30 days");
    PredefinedRange.make "This Month"
      (mkRange (Some (startOfMonth (newDate 8))) (Some (endOfMonth (newDate 9))))
      (Some "Select the current month");
    PredefinedRange.make "Last Month"
      (mkRange (Some (startOfMonth (subMonths (newDate 10) 1)))
               (Some (endOfMonth (subMonths (newDate 11) 1))))
      (Some "Select the previous month") ].

(** The props when the caller passes no [predefinedRanges]. *)
Definition withDefaultRanges `{DateLib} (p : Props) : Props :=
  {| value := value p;
     onChange := onChange p;
     placeholder := placeholder p;
     predefinedRanges := defaultPredefinedRanges;
     closeOnClear := closeOnClear p;
     applyOnPredefinedSelect := applyOnPredefinedSelect p;
     clearOnSelect := clearOnSelect p;
     minDate := minDate p;
     maxDate := maxDate p |}.

(** ** What the popover shows *)

Record Display : Type := mkDisplay {
  showPredefinedRanges : bool;
  showCalendar : bool
}.

(** The pieces the two layouts are made of: the list of shortcut buttons
    ([PredefinedRangesContent]), the mobile [Select] of shortcuts, the
    calendar with its Clear and Apply buttons ([CalendarContent] and
    [MobileCalendarContent]), and the note shown when there is nothing. *)
Inductive Part : Type :=
| ShortcutList
| ShortcutSelect
| CalendarPanel
| NoContentNote.

Definition DesktopContent (d : Display) : list Part :=
  if negb (showPredefinedRanges d) && negb (showCalendar d) then [NoContentNote]
  else if negb (showPredefinedRanges d) then [CalendarPanel]
  else if negb (showCalendar d) then [ShortcutList]
  else [ShortcutList; CalendarPanel].

Definition MobileContent (d : Display) : list Part :=
  let isQuickSelectOnly := showPredefinedRanges d && negb (showCalendar d) in
  ((if showPredefinedRanges d && showCalendar d then [ShortcutSelect] else []) ++
   (if isQuickSelectOnly then [ShortcutList] else []) ++
   (if showCalendar d then [CalendarPanel] else []) ++
   (if negb (showCalendar d) && negb (showPredefinedRanges d)
    then [NoContentNote] else []))%list.

(** The gestures a piece passes to the handlers: the calendar reports a
    selection, its two buttons fire unless disabled, the list has one button
    per shortcut and the [Select] one item per shortcut label. *)
Definition offers (p : Props) (s : State) (part : Part) (e : Event) : bool :=
  match part, e with
  | CalendarPanel, CalendarSelect _ => true
  | CalendarPanel, ApplyClick => negb (applyDisabled s)
  | CalendarPanel, ClearClick => negb (clearDisabled s)
  | ShortcutList, PredefinedClick index =>
      defined (nth_error (predefinedRanges p) index)
  | ShortcutSelect, SelectValueChange chosen =>
      existsb (fun range => String.eqb (PredefinedRange.label range) chosen)
              (predefinedRanges p)
  | _, _ => false
  end.

(** ** The picker under the caller of the usage example *)

Definition withValue (p : Props) (v : option DateRange) : Props :=
  {| value := v;
     onChange := onChange p;
     placeholder := placeholder p;
     predefinedRanges := predefinedRanges p;
     closeOnClear := closeOnClear p;
     applyOnPredefinedSelect := applyOnPredefinedSelect p;
     clearOnSelect := clearOnSelect p;
     minDate := minDate p;
     maxDate := maxDate p |}.

(** What happens to the picker: a gesture, or the caller passing another
    [value]. *)
Inductive Input : Type :=
| Gesture (e : Event)
| NewValue (v : option DateRange).

(** The popover's content is mounted while it is open; the trigger and the
    effect need no open popover. *)
Definition available (s : State) (e : Event) : bool :=
  match e with
  | PopoverOpenChange _ | ValueChanged => true
  | _ => open s
  end.

(** One round: the handler runs, the caller stores what [onChange] handed
    it and passes it back as [value], and the effect follows the new
    [value]. (When the caller is handed the very object it holds, React
    skips the effect; the draft is that range already.) *)
Definition next (w : Props * State) (i : Input) : Props * State :=
  let (p, s) := w in
  match i with
  | Gesture e =>
      if available s e then
        let h := handler p s e in
        let p' := withValue p (setDateRange (value p) h) in
        let s' := commit s h in
        match emitted h with
        | [] => (p, s')
        | _ :: _ => (p', commit s' (syncValue p'))
        end
      else (p, s)
  | NewValue v =>
      let p' := withValue p v in
      (p', commit s (syncValue p'))
  end.

Definition run (p : Props) (inputs : list Input) : Props * State :=
  fold_left next inputs (p, initialState p).

(** ** Sample data *)

Module Sample.

(** 5 January 2024, at 00:00 and at 19:00 UTC, and 9 January 2024. *)
Definition jan5 : Date := TimeValue 1704412800000.
Definition jan5_evening : Date := TimeValue 1704481200000.
Definition jan9 : Date := TimeValue 1704758400000.
Definition jan9_noon : Date := TimeValue 1704801600000.
Definition feb1 : Date := TimeValue 1706745600000.
Definition feb3 : Date := TimeValue 1706918400000.

Definition range (a b : Date) : DateRange := mkRange (Some a) (Some b).

(** A calendar gesture in progress: only the first day is chosen. *)
Definition partial : DateRange := mkRange (Some jan5) None.

(** A catalog entry that is not a complete range. *)
Definition since : PredefinedRange.t :=
  PredefinedRange.make "Since 5 January" partial None.

Definition firstWeek : PredefinedRange.t :=
  PredefinedRange.make "First week" (range jan5 jan9) None.

(** The component's default flags, with a callback installed. *)
Definition props (v : option DateRange) (catalog : list PredefinedRange.t) : Props :=
  {| value := v;
     onChange := true;
     placeholder := "Select date range";
     predefinedRanges := catalog;
     closeOnClear := true;
     applyOnPredefinedSelect := true;
     clearOnSelect := true;
     minDate := None;
     maxDate := None |}.

Definition manual (v : option DateRange) : Props :=
  {| value := v;
     onChange := true;
     placeholder := "Select date range";
     predefinedRanges := [firstWeek];
     closeOnClear := true;
     applyOnPredefinedSelect := false;
     clearOnSelect := false;
     minDate := None;
     maxDate := None |}.

Definition opened (draft : option DateRange) : State := mkState true draft.

(** A second entry under a label already taken. *)
Definition firstWeekAgain : PredefinedRange.t :=
  PredefinedRange.make "First week" (range feb1 feb3) None.

Definition february : PredefinedRange.t :=
  PredefinedRange.make "February" (range feb1 feb3) (Some "Select early February").

(** A window that is empty: [minDate] on 9 January, [maxDate] on 5 January. *)
Definition emptyWindow : Props :=
  {| value := None;
     onChange := true;
     placeholder := "Select date range";
     predefinedRanges := [];
     closeOnClear := true;
     applyOnPredefinedSelect := true;
     clearOnSelect := true;
     minDate := Some jan9;
     maxDate := Some jan5 |}.

End Sample.

(** * Properties *)

(** ** Calendar arithmetic *)

Module ESFacts.
Import ES.

Lemma DayFromYear_succ (y : Z) :
  DayFromYear (y + 1) = DayFromYear y + DaysInYear y.
Proof.
  unfold DayFromYear, DaysInYear.
  destruct (Z.eqb_spec (y mod 4) 0); destruct (Z.eqb_spec (y mod 100) 0);
    destruct (Z.eqb_spec (y mod 400) 0); cbn [negb];
    Z.div_mod_to_equations; lia.
Qed.

Lemma YearFromDay_spec (d : Z) :
  DayFromYear (YearFromDay d) <= d < DayFromYear (YearFromDay d + 1).
Proof.
  unfold YearFromDay.
  set (y := 1970 + 400 * d / 146097).
  assert (Hlo : DayFromYear (y - 1) <= d).
  { unfold DayFromYear, y. Z.div_mod_to_equations. lia. }
  assert (Hhi : d < DayFromYear (y + 2)).
  { unfold DayFromYear, y. Z.div_mod_to_equations. lia. }
  destruct (Z.ltb_spec d (DayFromYear y)).
  - replace (y - 1 + 1) with y by lia. lia.
  - destruct (Z.leb_spec (DayFromYear (y + 1)) d).
    + replace (y + 1 + 1) with (y + 2) by lia. lia.
    + lia.
Qed.

Lemma DayFromYear_lt (y1 y2 : Z) : y1 < y2 -> DayFromYear y1 < DayFromYear y2.
Proof. unfold DayFromYear. intros Hlt. Z.div_mod_to_equations. lia. Qed.

(** [YearFromTime(t)] is the largest year that starts at or before [t]. *)
Lemma YearFromTime_largest (t y : Z) :
  TimeFromYear (YearFromTime t) <= t /\
  (TimeFromYear y <= t -> y <= YearFromTime t).
Proof.
  unfold TimeFromYear, YearFromTime.
  pose proof (YearFromDay_spec (Day t)) as [Hlo Hhi].
  assert (Hday : msPerDay * Day t <= t < msPerDay * (Day t + 1)).
  { unfold Day, msPerDay. Z.div_mod_to_equations. lia. }
  unfold msPerDay in *. split; [lia |].
  intros Hy. destruct (Z.le_gt_cases y (YearFromDay (Day t))) as [Hle | Hgt]; trivial.
  assert (DayFromYear (YearFromDay (Day t) + 1) <= DayFromYear y).
  { destruct (Z.eq_dec (YearFromDay (Day t) + 1) y) as [<- | Hne]; [lia |].
    apply Z.lt_le_incl, DayFromYear_lt. lia. }
  lia.
Qed.

Lemma DayWithinYear_nonneg (t : Z) : 0 <= DayWithinYear t.
Proof.
  unfold DayWithinYear, YearFromTime.
  pose proof (YearFromDay_spec (Day t)). lia.
Qed.

Lemma DayWithinYear_bound (t : Z) :
  DayWithinYear t < DaysInYear (YearFromTime t).
Proof.
  unfold DayWithinYear, YearFromTime.
  pose proof (YearFromDay_spec (Day t)) as Hy.
  rewrite DayFromYear_succ in Hy. lia.
Qed.

Lemma InLeapYear_range (t : Z) : InLeapYear t = 0 \/ InLeapYear t = 1.
Proof. unfold InLeapYear. destruct (_ =? _); auto. Qed.

Lemma MonthFromTime_range (t : Z) : 0 <= MonthFromTime t <= 11.
Proof.
  unfold MonthFromTime.
  repeat match goal with
         | |- context [if ?b then _ else _] => destruct b
         end; lia.
Qed.

(** Every month branch, with the day of the month it yields. *)
Ltac month_cases :=
  unfold DateFromTime, MonthFromTime;
  repeat match goal with
         | |- context [?a <? ?b] => destruct (Z.ltb_spec a b)
         end; cbv iota beta.

Lemma DateFromTime_range (t : Z) : 1 <= DateFromTime t <= 31.
Proof.
  pose proof (DayWithinYear_nonneg t) as Hlo.
  pose proof (DayWithinYear_bound t) as Hhi.
  assert (Hl : DaysInYear (YearFromTime t) = 365 + InLeapYear t).
  { unfold InLeapYear, DaysInYear.
    repeat match goal with
           | |- context [negb ?b] => destruct b; cbn [negb]
           end; reflexivity. }
  rewrite Hl in Hhi. clear Hl.
  pose proof (InLeapYear_range t) as Hl.
  revert Hlo Hhi Hl. unfold DateFromTime, MonthFromTime.
  generalize (DayWithinYear t) (InLeapYear t). intros d l Hlo Hhi Hl.
  month_cases; lia.
Qed.

(** Year, month and day of the month determine the day number. *)
Lemma Day_of_fields (t1 t2 : Z) :
  YearFromTime t1 = YearFromTime t2 ->
  MonthFromTime t1 = MonthFromTime t2 ->
  DateFromTime t1 = DateFromTime t2 ->
  Day t1 = Day t2.
Proof.
  intros Hy Hm Hd.
  assert (Hl : InLeapYear t1 = InLeapYear t2).
  { unfold InLeapYear. now rewrite Hy. }
  assert (Hw : DayWithinYear t1 = DayWithinYear t2).
  { pose proof (InLeapYear_range t2) as Hr.
    revert Hm Hd Hr. unfold DateFromTime, MonthFromTime. rewrite Hl.
    generalize (DayWithinYear t1) (DayWithinYear t2) (InLeapYear t2).
    intros d1 d2 l. month_cases; lia. }
  unfold DayWithinYear in Hw. rewrite Hy in Hw. lia.
Qed.

(** The fields are functions of the day number: the time of day is lost. *)
Lemma fields_of_Day (t1 t2 : Z) :
  Day t1 = Day t2 ->
  WeekDay t1 = WeekDay t2 /\ YearFromTime t1 = YearFromTime t2 /\
  MonthFromTime t1 = MonthFromTime t2 /\ DateFromTime t1 = DateFromTime t2.
Proof.
  intros Hday.
  assert (Hy : YearFromTime t1 = YearFromTime t2)
    by (unfold YearFromTime; now rewrite Hday).
  assert (Hl : InLeapYear t1 = InLeapYear t2)
    by (unfold InLeapYear; now rewrite Hy).
  assert (Hw : DayWithinYear t1 = DayWithinYear t2)
    by (unfold DayWithinYear; now rewrite Hday, Hy).
  assert (Hm : MonthFromTime t1 = MonthFromTime t2)
    by (unfold MonthFromTime; now rewrite Hw, Hl).
  repeat split; trivial.
  - unfold WeekDay. now rewrite Hday.
  - unfold DateFromTime. now rewrite Hm, Hw, Hl.
Qed.

End ESFacts.

(** ** Decimal strings *)

Module StringFacts.
Import ES.

Lemma digitsOnly_app (a b : string) :
  digitsOnly (a ++ b) = digitsOnly a && digitsOnly b.
Proof.
  induction a as [| c a IH]; cbn [String.append digitsOnly]; [reflexivity |].
  now rewrite IH, andb_assoc.
Qed.

Lemma digitsOnly_zeros (k : nat) : digitsOnly (zeros k) = true.
Proof. induction k; [reflexivity | cbn [zeros digitsOnly]; now rewrite IHk]. Qed.

Lemma digitsOnly_uint (d : Decimal.uint) :
  digitsOnly (NilEmpty.string_of_uint d) = true.
Proof. induction d; cbn [NilEmpty.string_of_uint digitsOnly]; rewrite ?IHd; reflexivity. Qed.

Lemma digitsOnly_padded (n : Z) (k : nat) :
  digitsOnly (ToZeroPaddedDecimalString n k) = true.
Proof.
  unfold ToZeroPaddedDecimalString, padStart0, decimal.
  now rewrite digitsOnly_app, digitsOnly_zeros, digitsOnly_uint.
Qed.

Lemma parseDecimal_zeros (k : nat) (s : string) :
  parseDecimal (zeros k ++ s) = parseDecimal s.
Proof.
  induction k as [| k IH]; [reflexivity |].
  revert IH. unfold parseDecimal. cbn [zeros String.append NilEmpty.uint_of_string].
  destruct (NilEmpty.uint_of_string (zeros k ++ s)) as [d |];
    intros <-; reflexivity.
Qed.

Lemma parseDecimal_padded (n : Z) (k : nat) :
  parseDecimal (ToZeroPaddedDecimalString n k) = Some (Z.to_N n).
Proof.
  unfold ToZeroPaddedDecimalString, padStart0. rewrite parseDecimal_zeros.
  unfold parseDecimal, decimal. rewrite NilEmpty.usu. cbn [option_map].
  now rewrite Unsigned.of_to.
Qed.

Lemma padded_inj (n m : Z) (k : nat) :
  0 <= n -> 0 <= m ->
  ToZeroPaddedDecimalString n k = ToZeroPaddedDecimalString m k -> n = m.
Proof.
  intros Hn Hm Heq.
  assert (Hp : Some (Z.to_N n) = Some (Z.to_N m))
    by (rewrite <- !(parseDecimal_padded _ k); now rewrite Heq).
  injection Hp as Hp. apply (f_equal Z.of_N) in Hp.
  rewrite !Z2N.id in Hp; assumption.
Qed.

(** Two digit strings followed by a character that is no digit. *)
Lemma digits_then_stop (a a' r r' : string) (c c' : ascii) :
  digitsOnly a = true -> digitsOnly a' = true ->
  isDigit c = false -> isDigit c' = false ->
  (a ++ String c r = a' ++ String c' r')%string ->
  a = a' /\ r = r'.
Proof.
  revert a'. induction a as [| x a IH]; intros [| x' a'] Ha Ha' Hc Hc' Heq;
    cbn [String.append digitsOnly] in *.
  - injection Heq as _ Hr. auto.
  - injection Heq as Hx _. subst. apply andb_prop in Ha'. destruct Ha'. congruence.
  - injection Heq as Hx _. subst. apply andb_prop in Ha. destruct Ha. congruence.
  - injection Heq as Hx Hrest. subst.
    apply andb_prop in Ha, Ha'. destruct Ha, Ha'.
    destruct (IH a') as [-> ->]; auto.
Qed.

End StringFacts.

(** ** [toDateString] names the local calendar day *)

Module DateStringFacts.
Import ES ESFacts StringFacts.

Lemma weekDayName_shape (w : Z) :
  exists a b c, weekDayName w = String a (String b (String c "")) /\ a <> "I"%char.
Proof.
  unfold weekDayName.
  repeat match goal with
         | |- context [match ?x with _ => _ end] => destruct x
         end; do 3 eexists; (split; [reflexivity | discriminate]).
Qed.

Lemma monthName_shape (m : Z) :
  exists a b c, monthName m = String a (String b (String c "")).
Proof.
  unfold monthName.
  repeat match goal with
         | |- context [match ?x with _ => _ end] => destruct x
         end; do 3 eexists; reflexivity.
Qed.

Lemma monthName_inj (m1 m2 : Z) :
  0 <= m1 <= 11 -> 0 <= m2 <= 11 -> monthName m1 = monthName m2 -> m1 = m2.
Proof.
  intros H1 H2.
  assert (E1 : m1 = 0 \/ m1 = 1 \/ m1 = 2 \/ m1 = 3 \/ m1 = 4 \/ m1 = 5 \/
               m1 = 6 \/ m1 = 7 \/ m1 = 8 \/ m1 = 9 \/ m1 = 10 \/ m1 = 11) by lia.
  assert (E2 : m2 = 0 \/ m2 = 1 \/ m2 = 2 \/ m2 = 3 \/ m2 = 4 \/ m2 = 5 \/
               m2 = 6 \/ m2 = 7 \/ m2 = 8 \/ m2 = 9 \/ m2 = 10 \/ m2 = 11) by lia.
  clear H1 H2.
  repeat (destruct E1 as [-> | E1]); try subst m1;
    repeat (destruct E2 as [-> | E2]); try subst m2;
    cbn; intros Heq; solve [reflexivity | discriminate Heq].
Qed.

Lemma yearWithSign_inj (y1 y2 : Z) : yearWithSign y1 = yearWithSign y2 -> y1 = y2.
Proof.
  unfold yearWithSign.
  pose proof (digitsOnly_padded (Z.abs y1) 4) as D1.
  pose proof (digitsOnly_padded (Z.abs y2) 4) as D2.
  destruct (Z.leb_spec 0 y1), (Z.leb_spec 0 y2); cbn [String.append]; intros Heq.
  - apply padded_inj in Heq; lia.
  - rewrite Heq in D1. discriminate D1.
  - rewrite <- Heq in D2. discriminate D2.
  - injection Heq as Heq. apply padded_inj in Heq; lia.
Qed.

Lemma DateString_inj (t1 t2 : Z) : DateString t1 = DateString t2 -> Day t1 = Day t2.
Proof.
  unfold DateString.
  destruct (weekDayName_shape (WeekDay t1)) as (a1 & b1 & c1 & -> & _).
  destruct (weekDayName_shape (WeekDay t2)) as (a2 & b2 & c2 & -> & _).
  destruct (monthName_shape (MonthFromTime t1)) as (x1 & y1 & z1 & M1).
  destruct (monthName_shape (MonthFromTime t2)) as (x2 & y2 & z2 & M2).
  rewrite M1, M2. cbn [String.append]. intros Heq.
  injection Heq as _ _ _ Hx Hy Hz Hrest.
  assert (Hm : MonthFromTime t1 = MonthFromTime t2).
  { apply monthName_inj; try apply MonthFromTime_range. congruence. }
  apply digits_then_stop in Hrest;
    [ | apply digitsOnly_padded | apply digitsOnly_padded | reflexivity | reflexivity ].
  destruct Hrest as [Hd Hyear].
  apply yearWithSign_inj in Hyear.
  pose proof (DateFromTime_range t1). pose proof (DateFromTime_range t2).
  apply padded_inj in Hd; try lia.
  now apply Day_of_fields.
Qed.

Lemma DateString_of_Day (t1 t2 : Z) : Day t1 = Day t2 -> DateString t1 = DateString t2.
Proof.
  intros Hday. destruct (fields_of_Day _ _ Hday) as (Hw & Hy & Hm & Hd).
  unfold DateString. now rewrite Hw, Hy, Hm, Hd.
Qed.

Lemma DateString_valid (t : Z) : DateString t <> "Invalid Date".
Proof.
  unfold DateString.
  destruct (weekDayName_shape (WeekDay t)) as (a & b & c & -> & Ha).
  cbn [String.append]. intros Heq. injection Heq as Heq _. contradiction.
Qed.

End DateStringFacts.

(** Two dates print the same date string exactly when they fall on the same
    local calendar day (or are both invalid). *)
Lemma toDateString_calendarDay `{HostTimeZone} (a b : Date) :
  toDateString a = toDateString b <-> calendarDay a = calendarDay b.
Proof.
  destruct a as [| ta], b as [| tb]; cbn [toDateString calendarDay].
  - tauto.
  - split; [intros Heq; symmetry in Heq | intros Heq; discriminate Heq].
    now apply DateStringFacts.DateString_valid in Heq.
  - split; [intros Heq | intros Heq; discriminate Heq].
    now apply DateStringFacts.DateString_valid in Heq.
  - split.
    + intros Heq. f_equal. now apply DateStringFacts.DateString_inj.
    + intros Heq. injection Heq as Heq. now apply DateStringFacts.DateString_of_Day.
Qed.

(** ** Range model *)

Lemma isValid_TimeValue (d : Date) :
  DateFns.isValid d = true <-> exists tv, d = TimeValue tv.
Proof.
  destruct d as [| tv]; cbn; split; intros Hd; eauto; try discriminate.
  destruct Hd as [tv Hd]. discriminate.
Qed.

(** C3. [isValidDateRange r] is true exactly when [r.from] and [r.to] are
    both present, both are valid dates (they carry a time value, not [NaN]),
    and [from <= to] on those time values. *)
Theorem isValidDateRange_iff (r : option DateRange) :
  isValidDateRange r = true <->
  exists f t : Date,
    from' r = Some f /\ to' r = Some t /\
    DateFns.isValid f = true /\ DateFns.isValid t = true /\
    exists a b : Z, f = TimeValue a /\ t = TimeValue b /\ a <= b.
Proof.
  unfold isValidDateRange. split.
  - destruct (from' r) as [f |]; [| discriminate].
    destruct (to' r) as [t |]; [| discriminate].
    intros Hv. apply andb_prop in Hv. destruct Hv as [Hv Hle].
    apply andb_prop in Hv. destruct Hv as [Hf Ht].
    exists f, t. repeat split; trivial.
    destruct f as [| a]; [discriminate |]. destruct t as [| b]; [discriminate |].
    exists a, b. repeat split. now apply Z.leb_le.
  - intros (f & t & -> & -> & _ & _ & a & b & -> & -> & Hle).
    cbn. now apply Z.leb_le.
Qed.

(** C4. [isRangeEqual a b] is true exactly when both ranges are complete and
    their bounds fall on the same local calendar days, whatever the time of
    day; so two complete ranges on the same days at different times are
    equal, and a pair with an incomplete range never is. *)
Theorem isRangeEqual_iff `{HostTimeZone} (a b : option DateRange) :
  (isRangeEqual a b = true <->
   exists fa ta fb tb : Date,
     from' a = Some fa /\ to' a = Some ta /\
     from' b = Some fb /\ to' b = Some tb /\
     calendarDay fa = calendarDay fb /\ calendarDay ta = calendarDay tb)
  /\
  (forall fa ta fb tb : Z,
     ES.Day (ES.LocalTime fa) = ES.Day (ES.LocalTime fb) ->
     ES.Day (ES.LocalTime ta) = ES.Day (ES.LocalTime tb) ->
     isRangeEqual (Some (mkRange (Some (TimeValue fa)) (Some (TimeValue ta))))
                  (Some (mkRange (Some (TimeValue fb)) (Some (TimeValue tb)))) = true)
  /\
  (from' a = None \/ to' a = None \/ from' b = None \/ to' b = None ->
   isRangeEqual a b = false).
Proof.
  assert (Hiff : isRangeEqual a b = true <->
   exists fa ta fb tb : Date,
     from' a = Some fa /\ to' a = Some ta /\
     from' b = Some fb /\ to' b = Some tb /\
     calendarDay fa = calendarDay fb /\ calendarDay ta = calendarDay tb).
  { unfold isRangeEqual. split.
    - destruct (from' a) as [fa |]; [| discriminate].
      destruct (to' a) as [ta |]; [| discriminate].
      destruct (from' b) as [fb |]; [| discriminate].
      destruct (to' b) as [tb |]; [| discriminate].
      intros Heq. apply andb_prop in Heq. destruct Heq as [Hf Ht].
      apply String.eqb_eq in Hf, Ht.
      exists fa, ta, fb, tb. repeat split; trivial; now apply toDateString_calendarDay.
    - intros (fa & ta & fb & tb & -> & -> & -> & -> & Hf & Ht).
      apply toDateString_calendarDay in Hf, Ht.
      apply andb_true_intro. split; now apply String.eqb_eq. }
  split; [exact Hiff | split].
  - intros fa ta fb tb Hf Ht. unfold isRangeEqual. cbn [from' to' from to].
    apply andb_true_intro.
    split; apply String.eqb_eq, toDateString_calendarDay; cbn; congruence.
  - intros Hmiss. unfold isRangeEqual.
    destruct (from' a); [| reflexivity]. destruct (to' a); [| reflexivity].
    destruct (from' b); [| reflexivity]. destruct (to' b); [| reflexivity].
    destruct Hmiss as [Hm | [Hm | [Hm | Hm]]]; discriminate Hm.
Qed.

(** ** Running handlers *)

Lemma emitted_app (h1 h2 : Handler) :
  emitted (h1 ;;; h2) = (emitted h1 ++ emitted h2)%list.
Proof.
  induction h1 as [| [b | r | r] h1 IH]; cbn [emitted app]; rewrite ?IH; reflexivity.
Qed.

Lemma commit_app (s : State) (h1 h2 : Handler) :
  commit s (h1 ;;; h2) = commit (commit s h1) h2.
Proof. apply fold_left_app. Qed.

Lemma State_eta (s : State) : mkState (open s) (tempRange s) = s.
Proof. destruct s; reflexivity. Qed.

(** Once the flags a handler reads are known it is a literal list of
    effects, and running it computes. *)
Ltac run_handler :=
  unfold callOnChange, when, skip, setOpen, setTempRange,
    commit, setDateRange, requestsClose;
  repeat match goal with
         | H : onChange ?p = _ |- context [onChange ?p] => rewrite H
         end;
  cbn -[isValidDateRange defined]; rewrite ?State_eta.

Ltac finish := intuition (try discriminate; try congruence).

(** X6. The Apply button is disabled exactly when [handleApply] would
    decline: the button's [disabled] test and the handler's gate agree. *)
Lemma applyDisabled_iff (p : Props) (s : State) :
  applyDisabled s = true <-> handleApply p s = skip.
Proof.
  unfold applyDisabled, handleApply.
  destruct (defined (tempRange s)), (isValidDateRange (tempRange s)), (onChange p) eqn:Hcb;
    run_handler; finish.
Qed.

(** ** The selection controller *)

(** C1. With a draft that is present but not a valid range, [handleApply]
    does nothing: no effect at all, so no callback, the same draft and the
    same disclosure state. With no draft or a valid one it calls [onChange]
    with the draft and asks the popover to close. *)
Theorem handleApply_gate (p : Props) (s : State) :
  (defined (tempRange s) = true -> isValidDateRange (tempRange s) = false ->
   handleApply p s = skip /\
   emitted (handleApply p s) = [] /\
   commit s (handleApply p s) = s)
  /\
  (tempRange s = None \/ isValidDateRange (tempRange s) = true ->
   emitted (handleApply p s) = (if onChange p then [tempRange s] else []) /\
   (onChange p = true -> setDateRange (value p) (handleApply p s) = tempRange s) /\
   requestsClose (handleApply p s) /\
   commit s (handleApply p s) = mkState false (tempRange s)).
Proof.
  unfold handleApply. split.
  - intros Hd Hv. rewrite Hd, Hv. run_handler. auto.
  - intros Hok.
    assert (Hgate : negb (defined (tempRange s)) || isValidDateRange (tempRange s) = true).
    { destruct Hok as [-> | ->]; [reflexivity | apply orb_true_r]. }
    rewrite Hgate. destruct (onChange p) eqn:Hcb; run_handler; finish.
Qed.

(** C5. Closing the popover through [onOpenChange] (outside click, escape)
    calls no callback and closes; the draft goes back to the [value] prop
    when [applyOnPredefinedSelect] is off and is kept when it is on. *)
Theorem handleOpenChange_close (p : Props) (s : State) :
  emitted (handleOpenChange p false) = [] /\
  open (commit s (handleOpenChange p false)) = false /\
  (applyOnPredefinedSelect p = false ->
   tempRange (commit s (handleOpenChange p false)) = value p) /\
  (applyOnPredefinedSelect p = true ->
   tempRange (commit s (handleOpenChange p false)) = tempRange s).
Proof.
  unfold handleOpenChange.
  destruct (applyOnPredefinedSelect p); run_handler; finish.
Qed.

(** C6. [handleClear] always empties the draft. With [clearOnSelect] it also
    calls [onChange] with no selection and, when [closeOnClear] is on as
    well, asks the popover to close; without [clearOnSelect] it touches the
    draft only and calls nothing. *)
Theorem handleClear_spec (p : Props) (s : State) :
  tempRange (commit s (handleClear p)) = None /\
  (clearOnSelect p = true ->
   emitted (handleClear p) = (if onChange p then [None] else []) /\
   (onChange p = true -> setDateRange (value p) (handleClear p) = None) /\
   (closeOnClear p = true ->
    requestsClose (handleClear p) /\ open (commit s (handleClear p)) = false)) /\
  (clearOnSelect p = false ->
   handleClear p = setTempRange None /\
   emitted (handleClear p) = [] /\
   commit s (handleClear p) = mkState (open s) None).
Proof.
  unfold handleClear.
  destruct (clearOnSelect p), (closeOnClear p), (onChange p) eqn:Hcb;
    run_handler; finish.
Qed.

(** C7. [handlePredefinedRangeSelect range] sets the draft to [range]; it
    calls [onChange] with [range] and asks the popover to close exactly when
    [applyOnPredefinedSelect] is on. *)
Theorem handlePredefinedRangeSelect_spec (p : Props) (s : State) (range : DateRange) :
  tempRange (commit s (handlePredefinedRangeSelect p range)) = Some range /\
  (applyOnPredefinedSelect p = true ->
   emitted (handlePredefinedRangeSelect p range)
     = (if onChange p then [Some range] else []) /\
   (onChange p = true ->
    setDateRange (value p) (handlePredefinedRangeSelect p range) = Some range) /\
   requestsClose (handlePredefinedRangeSelect p range) /\
   open (commit s (handlePredefinedRangeSelect p range)) = false) /\
  (applyOnPredefinedSelect p = false ->
   emitted (handlePredefinedRangeSelect p range) = [] /\
   ~ requestsClose (handlePredefinedRangeSelect p range) /\
   open (commit s (handlePredefinedRangeSelect p range)) = open s) /\
  (onChange p = true ->
   (emitted (handlePredefinedRangeSelect p range) <> [] <->
    applyOnPredefinedSelect p = true)) /\
  (requestsClose (handlePredefinedRangeSelect p range) <->
   applyOnPredefinedSelect p = true).
Proof.
  unfold handlePredefinedRangeSelect.
  destruct (applyOnPredefinedSelect p), (onChange p) eqn:Hcb;
    run_handler; finish.
Qed.

(** C10. Without [clearOnSelect], [handleClear] only empties the draft: the
    disclosure state stays as it was even with [closeOnClear] on, no callback
    is called, and the caller's committed value stays. *)
Theorem handleClear_local (p : Props) (s : State) :
  clearOnSelect p = false ->
  handleClear p = [SetTempRange None] /\
  tempRange (commit s (handleClear p)) = None /\
  open (commit s (handleClear p)) = open s /\
  ~ requestsClose (handleClear p) /\
  emitted (handleClear p) = [] /\
  setDateRange (value p) (handleClear p) = value p.
Proof.
  intros Hflag. unfold handleClear. rewrite Hflag. run_handler. finish.
Qed.

(** Every [onChange] call of a handler, with where it comes from. *)
Lemma emitted_origin (p : Props) (s : State) (e : Event) (x : option DateRange) :
  In x (emitted (handler p s e)) ->
  (e = ApplyClick /\ x = tempRange s /\
   (x = None \/ isValidDateRange x = true)) \/
  (e = ClearClick /\ clearOnSelect p = true /\ x = None) \/
  (applyOnPredefinedSelect p = true /\
   exists entry : PredefinedRange.t,
     In entry (predefinedRanges p) /\ x = Some (PredefinedRange.value entry) /\
     ((exists index, e = PredefinedClick index) \/
      e = SelectValueChange (PredefinedRange.label entry))).
Proof.
  assert (Hpre : forall entry,
    In entry (predefinedRanges p) ->
    In x (emitted (handlePredefinedRangeSelect p (PredefinedRange.value entry))) ->
    applyOnPredefinedSelect p = true /\ x = Some (PredefinedRange.value entry)).
  { intros entry _. unfold handlePredefinedRangeSelect.
    destruct (applyOnPredefinedSelect p), (onChange p) eqn:Hcb; run_handler; finish. }
  destruct e as [range | index | chosen | | | newOpen |]; cbn [handler].
  - unfold handleRangeSelect. run_handler. finish.
  - destruct (nth_error (predefinedRanges p) index) as [entry |] eqn:Hnth;
      [| run_handler; finish].
    intros Hin. apply nth_error_In in Hnth.
    destruct (Hpre entry Hnth Hin) as [Hflag ->].
    right. right. split; [assumption |]. exists entry. eauto.
  - unfold handleValueChange.
    destruct (find _ (predefinedRanges p)) as [entry |] eqn:Hfind;
      [| run_handler; finish].
    intros Hin. apply find_some in Hfind. destruct Hfind as [Hentry Hlabel].
    apply String.eqb_eq in Hlabel. subst chosen.
    destruct (Hpre entry Hentry Hin) as [Hflag ->].
    right. right. split; [assumption |]. exists entry. auto.
  - unfold handleApply.
    destruct (tempRange s) as [draft |] eqn:Hdraft; cbn [defined negb orb].
    + destruct (isValidDateRange (Some draft)) eqn:Hvalid, (onChange p) eqn:Hcb;
        run_handler; finish.
    + destruct (onChange p) eqn:Hcb; run_handler; finish.
  - unfold handleClear.
    destruct (clearOnSelect p), (closeOnClear p), (onChange p) eqn:Hcb;
      run_handler; finish.
  - unfold handleOpenChange.
    destruct newOpen, (applyOnPredefinedSelect p); run_handler; finish.
  - unfold syncValue. run_handler. finish.
Qed.

(** C2, as the code has it. [onChange] is called only by Apply, by Clear
    with [clearOnSelect] and by the choice of a catalog entry with
    [applyOnPredefinedSelect]; Apply hands over no selection or a complete
    valid range, Clear no selection, and a catalog choice the entry's range
    as the catalog has it. A calendar step calls nothing, and over a
    catalog of valid ranges every range handed over is absent or valid. *)
Theorem onChange_at_commit_points (p : Props) (s : State) (e : Event) :
  (forall x : option DateRange,
     In x (emitted (handler p s e)) ->
     (e = ApplyClick /\ x = tempRange s /\
      (x = None \/ isValidDateRange x = true)) \/
     (e = ClearClick /\ clearOnSelect p = true /\ x = None) \/
     (applyOnPredefinedSelect p = true /\
      exists entry : PredefinedRange.t,
        In entry (predefinedRanges p) /\ x = Some (PredefinedRange.value entry) /\
        ((exists index, e = PredefinedClick index) \/
         e = SelectValueChange (PredefinedRange.label entry))))
  /\
  (forall range, e = CalendarSelect range -> emitted (handler p s e) = [])
  /\
  ((forall entry, In entry (predefinedRanges p) ->
      isValidDateRange (Some (PredefinedRange.value entry)) = true) ->
   forall x, In x (emitted (handler p s e)) ->
     x = None \/ isValidDateRange x = true).
Proof.
  split; [| split].
  - intros x. apply emitted_origin.
  - intros range ->. reflexivity.
  - intros Hcatalog x Hin.
    destruct (emitted_origin p s e x Hin)
      as [(_ & _ & Hx) | [(_ & _ & ->) | (_ & entry & Hentry & -> & _)]]; auto.
Qed.

(** C9, as the code has it. A second [handleApply] right after the first
    leaves the state as the first left it, and does what the first did: it
    calls [onChange] again with the same draft when the draft is absent or
    valid, and nothing when the draft is present and invalid. *)
Theorem handleApply_twice (p : Props) (s : State) :
  let s1 := commit s (handleApply p s) in
  commit s1 (handleApply p s1) = s1 /\
  handleApply p s1 = handleApply p s /\
  emitted (handleApply p s1) = emitted (handleApply p s) /\
  (defined (tempRange s) = true -> isValidDateRange (tempRange s) = false ->
   emitted (handleApply p s1) = []) /\
  (tempRange s = None \/ isValidDateRange (tempRange s) = true ->
   emitted (handleApply p s1) = (if onChange p then [tempRange s] else [])).
Proof.
  unfold handleApply.
  destruct (tempRange s) as [draft |] eqn:Hdraft; cbn [defined negb orb].
  - destruct (isValidDateRange (Some draft)) eqn:Hvalid, (onChange p) eqn:Hcb;
      run_handler; rewrite ?Hdraft, ?Hvalid; run_handler; finish.
  - destruct (onChange p) eqn:Hcb; run_handler; rewrite ?Hdraft; run_handler; finish.
Qed.

(** After every handler that calls [onChange], the draft is the range it
    handed over: a caller that stores it passes the draft back as [value]. *)
Lemma draft_follows_emission (p : Props) (s : State) (e : Event) :
  emitted (handler p s e) <> [] ->
  setDateRange (value p) (handler p s e) = tempRange (commit s (handler p s e)).
Proof.
  assert (Hpre : forall range,
    emitted (handlePredefinedRangeSelect p range) <> [] ->
    setDateRange (value p) (handlePredefinedRangeSelect p range)
    = tempRange (commit s (handlePredefinedRangeSelect p range))).
  { intros range. unfold handlePredefinedRangeSelect.
    destruct (applyOnPredefinedSelect p), (onChange p) eqn:Hcb; run_handler; finish. }
  destruct e as [range | index | chosen | | | newOpen |]; cbn [handler].
  - unfold handleRangeSelect. run_handler. finish.
  - destruct (nth_error (predefinedRanges p) index); [apply Hpre | run_handler; finish].
  - unfold handleValueChange.
    destruct (find _ (predefinedRanges p)); [apply Hpre | run_handler; finish].
  - unfold handleApply.
    destruct (negb (defined (tempRange s)) || isValidDateRange (tempRange s)),
      (onChange p) eqn:Hcb; run_handler; finish.
  - unfold handleClear.
    destruct (clearOnSelect p), (closeOnClear p), (onChange p) eqn:Hcb;
      run_handler; finish.
  - unfold handleOpenChange.
    destruct newOpen, (applyOnPredefinedSelect p); run_handler; finish.
  - unfold syncValue. run_handler. finish.
Qed.

(** X5. With [minDate] after [maxDate] every valid date is disabled: the
    calendar has no selectable day. *)
Lemma isDateDisabled_empty_window (p : Props) (lo hi : Z) (date : Date) :
  minDate p = Some (TimeValue lo) -> maxDate p = Some (TimeValue hi) -> hi < lo ->
  DateFns.isValid date = true -> isDateDisabled p date = true.
Proof.
  intros Hlo Hhi Hlt Hvalid. unfold isDateDisabled. rewrite Hlo, Hhi.
  destruct date as [| tv]; [discriminate |]. cbn.
  destruct (Z.ltb_spec tv lo); [reflexivity |].
  destruct (Z.ltb_spec hi tv); [reflexivity | lia].
Qed.

(** The shortcut highlighted is the one whose days the draft covers. *)
Lemma isRangeSelected_draft `{HostTimeZone} (s : State) (range : DateRange) :
  isRangeSelected s range = isRangeEqual (Some range) (tempRange s).
Proof. reflexivity. Qed.

(** ** The trigger label *)

Lemma format_LLL_dd_y `{HostTimeZone} (tv : Z) :
  DateFns.format (TimeValue tv) DateFns.LLL_dd_y
  = Returns (monthDayYear (ES.LocalTime tv)).
Proof. reflexivity. Qed.

Lemma format_InvalidDate `{HostTimeZone} (formatStr : list DateFns.Token) :
  DateFns.format InvalidDate formatStr = Throws (RangeError "Invalid time value").
Proof. reflexivity. Qed.

(** C8, as the code has it. [formatDateRange] returns the placeholder when
    [from] is absent. With valid dates as bounds it returns the one
    formatted [from] date when [to] is absent or is the same instant, and
    the two formatted dates joined by [" - "] otherwise, each as
    ["LLL dd, y"] prints it. *)
Theorem formatDateRange_spec `{HostTimeZone} (p : Props) (r : option DateRange) :
  (from' r = None -> formatDateRange p r = Returns (placeholder p))
  /\
  (forall a : Z,
     from' r = Some (TimeValue a) ->
     to' r = None \/ to' r = Some (TimeValue a) ->
     formatDateRange p r = DateFns.format (TimeValue a) DateFns.LLL_dd_y /\
     formatDateRange p r = Returns (monthDayYear (ES.LocalTime a)))
  /\
  (forall a b : Z,
     from' r = Some (TimeValue a) -> to' r = Some (TimeValue b) -> a <> b ->
     formatDateRange p r
     = Returns (monthDayYear (ES.LocalTime a) ++ " - " ++ monthDayYear (ES.LocalTime b))).
Proof.
  unfold formatDateRange. split; [| split].
  - intros ->. reflexivity.
  - intros a -> [-> | ->]; cbn [getTime strictEquals]; rewrite ?Z.eqb_refl; auto.
  - intros a b -> -> Hne. cbn [getTime strictEquals].
    apply Z.eqb_neq in Hne. rewrite Hne. reflexivity.
Qed.

(** ** Scenarios *)

Module Scenarios.
Import Sample.

(** Scenario A: an incomplete draft is not applied. *)
Lemma apply_partial_draft :
  handleApply (props None []) (opened (Some partial)) = skip /\
  emitted (handleApply (props None []) (opened (Some partial))) = [] /\
  commit (opened (Some partial)) (handleApply (props None []) (opened (Some partial)))
  = opened (Some partial).
Proof.
  apply (proj1 (handleApply_gate (props None []) (opened (Some partial))));
    reflexivity.
Defined.

(** Scenario B: a shortcut with auto-apply is handed over at once. *)
Lemma select_first_week :
  emitted (handlePredefinedRangeSelect (props None [firstWeek]) (range jan5 jan9))
  = [Some (range jan5 jan9)] /\
  requestsClose (handlePredefinedRangeSelect (props None [firstWeek]) (range jan5 jan9)).
Proof.
  destruct (handlePredefinedRangeSelect_spec
              (props None [firstWeek]) (opened None) (range jan5 jan9))
    as (_ & Hon & _).
  destruct (Hon eq_refl) as (Hemit & _ & Hclose & _).
  split; [exact Hemit | exact Hclose].
Defined.

(** Scenario C: an outside click drops the unapplied draft. *)
Lemma close_discards_draft :
  tempRange (commit (opened (Some (range feb1 feb3)))
               (handleOpenChange (manual (Some (range jan5 jan9))) false))
  = Some (range jan5 jan9) /\
  emitted (handleOpenChange (manual (Some (range jan5 jan9))) false) = [].
Proof.
  destruct (handleOpenChange_close
              (manual (Some (range jan5 jan9))) (opened (Some (range feb1 feb3))))
    as (Hemit & _ & Hoff & _).
  split; [exact (Hoff eq_refl) | exact Hemit].
Defined.

(** Scenario D: Clear with both flags on. *)
Lemma clear_and_close :
  tempRange (commit (opened (Some (range jan5 jan9)))
               (handleClear (props (Some (range jan5 jan9)) []))) = None /\
  emitted (handleClear (props (Some (range jan5 jan9)) [])) = [None] /\
  requestsClose (handleClear (props (Some (range jan5 jan9)) [])).
Proof.
  destruct (handleClear_spec
              (props (Some (range jan5 jan9)) []) (opened (Some (range jan5 jan9))))
    as (Hdraft & Hon & _).
  destruct (Hon eq_refl) as (Hemit & _ & Hclose).
  destruct (Hclose eq_refl) as (Hreq & _).
  split; [exact Hdraft | split; [exact Hemit | exact Hreq]].
Defined.

(** Clear without [clearOnSelect] stays inside the picker. *)
Lemma clear_stays_local :
  clearOnSelect (manual (Some (range jan5 jan9))) = false /\
  handleClear (manual (Some (range jan5 jan9))) = [SetTempRange None] /\
  open (commit (opened (Some (range jan5 jan9)))
          (handleClear (manual (Some (range jan5 jan9))))) = true /\
  emitted (handleClear (manual (Some (range jan5 jan9)))) = [].
Proof.
  destruct (handleClear_local
              (manual (Some (range jan5 jan9))) (opened (Some (range jan5 jan9)))
              eq_refl)
    as (Hh & _ & Hopen & _ & Hemit & _).
  split; [reflexivity | split; [exact Hh | split; [exact Hopen | exact Hemit]]].
Defined.

(** Scenario E: a one-instant range prints as one date. *)
Lemma format_single_day :
  formatDateRange (props None []) (Some (range jan5 jan5)) = Returns "Jan 05, 2024".
Proof.
  destruct (formatDateRange_spec (props None []) (Some (range jan5 jan5)))
    as (_ & Hone & _).
  destruct (Hone 1704412800000 eq_refl (or_intror eq_refl)) as (_ & Htext).
  exact Htext.
Defined.

(** The same days at different hours are the same range. *)
Lemma equal_days_differing_times :
  isRangeEqual (Some (range jan5 jan9)) (Some (range jan5_evening jan9_noon)) = true.
Proof.
  apply (proj1 (proj2 (isRangeEqual_iff
                         (Some (range jan5 jan9))
                         (Some (range jan5_evening jan9_noon))))); reflexivity.
Defined.

Lemma valid_first_week :
  isValidDateRange (Some (range jan5 jan9)) = true.
Proof.
  apply (proj2 (isValidDateRange_iff (Some (range jan5 jan9)))).
  exists jan5, jan9. repeat split.
  exists 1704412800000, 1704758400000. repeat split. discriminate.
Defined.

(** A catalog of valid ranges only hands over valid ranges. *)
Lemma first_week_click_is_valid :
  Forall (fun x => x = None \/ isValidDateRange x = true)
         (emitted (handler (props None [firstWeek]) (opened None) (PredefinedClick 0))).
Proof.
  apply Forall_forall.
  apply (proj2 (proj2 (onChange_at_commit_points
                         (props None [firstWeek]) (opened None) (PredefinedClick 0)))).
  intros entry [<- | []]. reflexivity.
Defined.

(** Apply twice on a valid draft: the state stays, the call repeats. *)
Lemma apply_twice_first_week :
  let p := props None [] in
  let s := opened (Some (range jan5 jan9)) in
  let s1 := commit s (handleApply p s) in
  commit s1 (handleApply p s1) = s1 /\
  emitted (handleApply p s1) = [Some (range jan5 jan9)].
Proof.
  destruct (handleApply_twice (props None []) (opened (Some (range jan5 jan9))))
    as (Hstate & _ & _ & _ & Hemit).
  split; [exact Hstate | exact (Hemit (or_intror eq_refl))].
Defined.

(** ** Corner cases *)

(** A catalog entry that is not a complete range is handed to the caller
    as it is. *)
Lemma predefined_select_emits_incomplete :
  In (Some partial)
     (emitted (handler (props None [since]) (opened None) (PredefinedClick 0))) /\
  Some partial <> None /\
  isValidDateRange (Some partial) = false.
Proof. repeat split; [now left | discriminate]. Qed.

(** The second Apply calls [onChange] once more. *)
Lemma second_apply_emits_again :
  let p := props None [] in
  let s := opened (Some (range jan5 jan9)) in
  let s1 := commit s (handleApply p s) in
  emitted (handleApply p s) = [Some (range jan5 jan9)] /\
  emitted (handleApply p s1) = [Some (range jan5 jan9)] /\
  emitted (handleApply p s1) <> [].
Proof. repeat split. discriminate. Qed.

(** An Invalid Date as [from] makes [format] throw: nothing is returned. *)
Lemma format_invalid_from_throws :
  formatDateRange (props None []) (Some (mkRange (Some InvalidDate) None))
  = Throws (RangeError "Invalid time value") /\
  ~ exists text : string,
      formatDateRange (props None []) (Some (mkRange (Some InvalidDate) None))
      = Returns text.
Proof. split; [reflexivity | intros [text Htext]; discriminate Htext]. Qed.

End Scenarios.

(** ** Sample runs *)

Example toDateString_jan5 : toDateString Sample.jan5_evening = "Fri Jan 05 2024".
Proof. vm_compute. reflexivity. Qed.

Example toDateString_epoch : toDateString (TimeValue 0) = "Thu Jan 01 1970".
Proof. vm_compute. reflexivity. Qed.

Example toDateString_leap_day : toDateString (TimeValue 951782400000) = "Tue Feb 29 2000".
Proof. vm_compute. reflexivity. Qed.

Example toDateString_before_epoch : toDateString (TimeValue (-1)) = "Wed Dec 31 1969".
Proof. vm_compute. reflexivity. Qed.

Example toDateString_negative_year :
  toDateString (TimeValue (-62198755200000)) = "Fri Jan 01 -0001".
Proof. vm_compute. reflexivity. Qed.

Example format_range :
  formatDateRange (Sample.props None []) (Some (Sample.range Sample.jan5 Sample.jan9))
  = Returns "Jan 05, 2024 - Jan 09, 2024".
Proof. vm_compute. reflexivity. Qed.

Example format_placeholder :
  formatDateRange (Sample.props None []) None = Returns "Select date range".
Proof. reflexivity. Qed.


(** * More of the component *)

(** ** Range equality as a relation *)

(** X1. [isRangeEqual] does not depend on the order of its arguments and
    chains: ranges equal to a common range are equal. *)
Theorem isRangeEqual_sym_trans `{HostTimeZone} (a b c : option DateRange) :
  isRangeEqual a b = isRangeEqual b a /\
  (isRangeEqual a b = true -> isRangeEqual b c = true -> isRangeEqual a c = true).
Proof.
  unfold isRangeEqual. split.
  - destruct (from' a), (to' a), (from' b), (to' b); try reflexivity.
    now rewrite (String.eqb_sym (toDateString d)), (String.eqb_sym (toDateString d0)).
  - destruct (from' a), (to' a), (from' b), (to' b); try discriminate.
    destruct (from' c), (to' c); try discriminate.
    intros Hab Hbc.
    apply andb_prop in Hab, Hbc. destruct Hab as [Hf1 Ht1], Hbc as [Hf2 Ht2].
    apply String.eqb_eq in Hf1, Ht1, Hf2, Ht2.
    apply andb_true_intro. split; apply String.eqb_eq; congruence.
Qed.

(** X2. A range equals itself exactly when both of its bounds are present,
    valid dates or not: an absent range or one with a missing bound is not
    even equal to itself. *)
Theorem isRangeEqual_refl_iff `{HostTimeZone} (r : option DateRange) :
  isRangeEqual r r = true <-> exists f t : Date, from' r = Some f /\ to' r = Some t.
Proof.
  unfold isRangeEqual. split.
  - destruct (from' r) as [f |]; [| discriminate].
    destruct (to' r) as [t |]; [| discriminate]. eauto.
  - intros (f & t & -> & ->). now rewrite !String.eqb_refl.
Qed.

Lemma tempRange_after_predefined (p : Props) (s : State) (range : DateRange) :
  tempRange (commit s (handlePredefinedRangeSelect p range)) = Some range.
Proof.
  unfold handlePredefinedRangeSelect.
  destruct (applyOnPredefinedSelect p), (onChange p) eqn:Hcb; run_handler; finish.
Qed.

(** X3. Right after a shortcut is chosen it is the highlighted one exactly
    when its range has both bounds: a shortcut with a missing bound is never
    highlighted, not even once chosen. *)
Theorem isRangeSelected_after_select `{HostTimeZone}
  (p : Props) (s : State) (range : DateRange) :
  isRangeSelected (commit s (handlePredefinedRangeSelect p range)) range = true
  <-> exists f t : Date, from range = Some f /\ to range = Some t.
Proof.
  unfold isRangeSelected. rewrite tempRange_after_predefined.
  unfold isRangeEqual. cbn [from' to']. split.
  - destruct (from range) as [f |]; [| discriminate].
    destruct (to range) as [t |]; [| discriminate]. eauto.
  - intros (f & t & -> & ->). now rewrite !String.eqb_refl.
Qed.

(** ** Selectable dates *)

(** X4. A date is disabled exactly when it is a valid date strictly before
    a valid [minDate] or strictly after a valid [maxDate]: the bounds
    themselves are selectable, an Invalid Date is never disabled, and an
    invalid bound disables nothing. *)
Theorem isDateDisabled_iff (p : Props) (date : Date) :
  isDateDisabled p date = true <->
  exists tv : Z, date = TimeValue tv /\
    ((exists lo, minDate p = Some (TimeValue lo) /\ tv < lo) \/
     (exists hi, maxDate p = Some (TimeValue hi) /\ hi < tv)).
Proof.
  unfold isDateDisabled, lessThan. split.
  - destruct date as [| tv]; cbn [getTime].
    + destruct (minDate p) as [[| lo] |], (maxDate p) as [[| hi] |]; discriminate.
    + intros Hd. exists tv. split; [reflexivity |].
      destruct (minDate p) as [[| lo] |]; cbn [getTime] in Hd.
      * destruct (maxDate p) as [[| hi] |]; cbn [getTime] in Hd; try discriminate.
        destruct (Z.ltb_spec hi tv); [| discriminate]. right. eauto.
      * destruct (Z.ltb_spec tv lo); [left; eauto |].
        destruct (maxDate p) as [[| hi] |]; cbn [getTime] in Hd; try discriminate.
        destruct (Z.ltb_spec hi tv); [| discriminate]. right. eauto.
      * destruct (maxDate p) as [[| hi] |]; cbn [getTime] in Hd; try discriminate.
        destruct (Z.ltb_spec hi tv); [| discriminate]. right. eauto.
  - intros (tv & -> & [(lo & -> & Hlt) | (hi & -> & Hlt)]); cbn [getTime].
    + apply Z.ltb_lt in Hlt. now rewrite Hlt.
    + apply Z.ltb_lt in Hlt. rewrite Hlt.
      destruct (minDate p) as [[| lo] |]; cbn [getTime]; try reflexivity.
      destruct (tv <? lo); reflexivity.
Qed.

(** ** The Clear button *)

(** X7. The Clear button is disabled exactly when [handleClear] would leave
    the draft as it is. *)
Theorem clearDisabled_iff (p : Props) (s : State) :
  clearDisabled s = true <-> tempRange (commit s (handleClear p)) = tempRange s.
Proof.
  assert (Hafter : tempRange (commit s (handleClear p)) = None).
  { unfold handleClear.
    destruct (clearOnSelect p), (closeOnClear p), (onChange p) eqn:Hcb;
      run_handler; finish. }
  rewrite Hafter. unfold clearDisabled.
  destruct (tempRange s); cbn [defined negb]; finish.
Qed.

(** ** The mobile [Select] *)

Lemma find_label_first (chosen : string) (pre rest : list PredefinedRange.t)
  (entry : PredefinedRange.t) :
  (forall e, In e pre -> PredefinedRange.label e <> chosen) ->
  PredefinedRange.label entry = chosen ->
  find (fun range => String.eqb (PredefinedRange.label range) chosen)
       (pre ++ entry :: rest)%list = Some entry.
Proof.
  intros Hpre Hentry. induction pre as [| e pre IH]; cbn [app find].
  - apply String.eqb_eq in Hentry. now rewrite Hentry.
  - destruct (String.eqb_spec (PredefinedRange.label e) chosen) as [Heq | _].
    + exfalso. apply (Hpre e); [now left | exact Heq].
    + apply IH. intros e' He'. apply Hpre. now right.
Qed.

(** X8. A label that no shortcut carries does nothing: no update is
    queued and [onChange] is not called. *)
Theorem handleValueChange_unknown (p : Props) (chosen : string) :
  (forall entry, In entry (predefinedRanges p) ->
                 PredefinedRange.label entry <> chosen) ->
  handleValueChange p chosen = skip.
Proof.
  intros Hnone. unfold handleValueChange.
  destruct (find _ (predefinedRanges p)) as [entry |] eqn:Hfind; [| reflexivity].
  apply find_some in Hfind. destruct Hfind as [Hin Hlabel].
  apply String.eqb_eq in Hlabel. now apply Hnone in Hin.
Qed.

(** X9. The [Select] picks the first shortcut that carries the chosen
    label: entries after it, the same label included, are not looked at. *)
Theorem handleValueChange_first (p : Props) (pre rest : list PredefinedRange.t)
  (entry : PredefinedRange.t) :
  predefinedRanges p = (pre ++ entry :: rest)%list ->
  (forall e, In e pre -> PredefinedRange.label e <> PredefinedRange.label entry) ->
  handleValueChange p (PredefinedRange.label entry)
  = handlePredefinedRangeSelect p (PredefinedRange.value entry).
Proof.
  intros Hcat Hpre. unfold handleValueChange. rewrite Hcat.
  now rewrite (find_label_first _ pre rest entry Hpre eq_refl).
Qed.

(** X10. When the labels are pairwise distinct, choosing a shortcut by its
    label in the [Select] does what clicking its button in the list does. *)
Theorem select_agrees_with_click (p : Props) (s : State) (index : nat)
  (entry : PredefinedRange.t) :
  NoDup (map PredefinedRange.label (predefinedRanges p)) ->
  nth_error (predefinedRanges p) index = Some entry ->
  handler p s (SelectValueChange (PredefinedRange.label entry))
  = handler p s (PredefinedClick index).
Proof.
  intros Hnodup Hnth. cbn [handler]. rewrite Hnth.
  destruct (nth_error_split _ _ Hnth) as (pre & rest & Hcat & _).
  unfold handleValueChange. rewrite Hcat.
  rewrite (find_label_first _ pre rest entry); [reflexivity | | reflexivity].
  intros e He Heq. rewrite Hcat, map_app in Hnodup. cbn [map] in Hnodup.
  apply NoDup_remove_2 in Hnodup. apply Hnodup.
  apply in_or_app. left. rewrite <- Heq. now apply in_map.
Qed.

(** ** Handlers one after another *)

(** X11. Without [clearOnSelect] a Clear is handed over by the next Apply:
    Clear calls nothing, and Apply then calls [onChange] with no selection
    and closes the popover. *)
Theorem clear_then_apply (p : Props) (s : State) :
  clearOnSelect p = false ->
  let s1 := commit s (handleClear p) in
  emitted (handleClear p) = [] /\
  emitted (handleApply p s1) = (if onChange p then [None] else []) /\
  commit s1 (handleApply p s1) = mkState false None.
Proof.
  intros Hflag. unfold handleClear, handleApply. rewrite Hflag.
  destruct (onChange p) eqn:Hcb; run_handler; finish.
Qed.

(** X12. Without [applyOnPredefinedSelect] a shortcut goes through the
    gate of Apply: choosing it calls nothing, and the Apply that follows
    hands its range over when the range is valid and declines when not. *)
Theorem shortcut_then_apply (p : Props) (s : State) (range : DateRange) :
  applyOnPredefinedSelect p = false ->
  let s1 := commit s (handlePredefinedRangeSelect p range) in
  emitted (handlePredefinedRangeSelect p range) = [] /\
  (isValidDateRange (Some range) = true ->
   emitted (handleApply p s1) = (if onChange p then [Some range] else []) /\
   commit s1 (handleApply p s1) = mkState false (Some range)) /\
  (isValidDateRange (Some range) = false ->
   handleApply p s1 = skip).
Proof.
  intros Hflag. unfold handlePredefinedRangeSelect, handleApply. rewrite Hflag.
  run_handler. split; [reflexivity |].
  destruct (isValidDateRange (Some range)), (onChange p) eqn:Hcb; run_handler; finish.
Qed.

(** X13. A calendar selection, an outside click and a reopening: nothing
    is handed to the caller, and the popover reopens on the selection when
    [applyOnPredefinedSelect] is on and on the [value] prop when it is off. *)
Theorem close_and_reopen (p : Props) (s : State) (r : option DateRange) :
  let s1 := commit s (handleRangeSelect r) in
  let s2 := commit s1 (handleOpenChange p false) in
  let s3 := commit s2 (handleOpenChange p true) in
  open s2 = false /\ open s3 = true /\
  tempRange s3 = (if applyOnPredefinedSelect p then r else value p) /\
  emitted (handleRangeSelect r ;;; handleOpenChange p false ;;; handleOpenChange p true)
  = [].
Proof.
  unfold handleRangeSelect, handleOpenChange.
  destruct (applyOnPredefinedSelect p); run_handler; finish.
Qed.

(** ** The effect that follows [value] *)

Lemma value_withValue (p : Props) (v : option DateRange) : value (withValue p v) = v.
Proof. reflexivity. Qed.

(** X14. When the caller stores what [onChange] hands it and passes it back
    as [value], the effect that follows has nothing to do: after a handler
    that called [onChange] the draft is already the new [value]. *)
Theorem sync_after_emission (p : Props) (s : State) (e : Event) :
  emitted (handler p s e) <> [] ->
  commit (commit s (handler p s e))
         (syncValue (withValue p (setDateRange (value p) (handler p s e))))
  = commit s (handler p s e).
Proof.
  intros Hemit. unfold syncValue. rewrite value_withValue.
  rewrite (draft_follows_emission p s e Hemit).
  unfold setTempRange, commit at 1. cbn [fold_left update]. apply State_eta.
Qed.

(** A round that calls nothing keeps a closed picker on the [value] prop. *)
Lemma quiet_round_keeps_closed_draft (p : Props) (s : State) (e : Event) :
  applyOnPredefinedSelect p = false -> onChange p = true ->
  available s e = true ->
  emitted (handler p s e) = [] ->
  (open s = false -> tempRange s = value p) ->
  open (commit s (handler p s e)) = false ->
  tempRange (commit s (handler p s e)) = value p.
Proof.
  intros Hflag Hcb Hav Hquiet Hinv.
  assert (Hpre : forall range,
    open s = true ->
    open (commit s (handlePredefinedRangeSelect p range)) = false ->
    tempRange (commit s (handlePredefinedRangeSelect p range)) = value p).
  { intros range Hopen. unfold handlePredefinedRangeSelect. rewrite Hflag.
    run_handler. congruence. }
  destruct e as [range | index | chosen | | | newOpen |];
    cbn [handler available] in *.
  - unfold handleRangeSelect. run_handler. congruence.
  - destruct (nth_error (predefinedRanges p) index); [now apply Hpre |].
    run_handler. congruence.
  - unfold handleValueChange.
    destruct (find _ (predefinedRanges p)); [now apply Hpre |].
    run_handler. congruence.
  - revert Hquiet. unfold handleApply.
    destruct (negb (defined (tempRange s)) || isValidDateRange (tempRange s));
      run_handler; [discriminate | congruence].
  - revert Hquiet. unfold handleClear.
    destruct (clearOnSelect p), (closeOnClear p); run_handler;
      try discriminate; congruence.
  - unfold handleOpenChange. rewrite Hflag. destruct newOpen; run_handler; finish.
  - unfold syncValue. run_handler. finish.
Qed.

Lemma next_keeps_closed_draft (w : Props * State) (i : Input) :
  applyOnPredefinedSelect (fst w) = false -> onChange (fst w) = true ->
  (open (snd w) = false -> tempRange (snd w) = value (fst w)) ->
  applyOnPredefinedSelect (fst (next w i)) = false /\
  onChange (fst (next w i)) = true /\
  (open (snd (next w i)) = false -> tempRange (snd (next w i)) = value (fst (next w i))).
Proof.
  destruct w as [p s]. cbn [fst snd]. intros Hflag Hcb Hinv.
  destruct i as [e | v]; cbn [next].
  - destruct (available s e) eqn:Hav; [| cbn [fst snd]; auto].
    destruct (emitted (handler p s e)) as [| x rest] eqn:Hemit; cbn [fst snd].
    + split; [exact Hflag | split; [exact Hcb |]].
      now apply quiet_round_keeps_closed_draft.
    + split; [exact Hflag | split; [exact Hcb |]]. intros _.
      unfold syncValue, setTempRange. rewrite value_withValue.
      unfold commit at 1. reflexivity.
  - cbn [fst snd]. split; [exact Hflag | split; [exact Hcb |]]. intros _. reflexivity.
Qed.

(** X15. With [applyOnPredefinedSelect] off and a caller that stores what
    [onChange] hands it, a closed picker always holds the [value] prop as
    its draft, whatever gestures and value changes came before. *)
Theorem closed_draft_is_value (p : Props) (inputs : list Input) :
  applyOnPredefinedSelect p = false -> onChange p = true ->
  open (snd (run p inputs)) = false ->
  tempRange (snd (run p inputs)) = value (fst (run p inputs)).
Proof.
  intros Hflag Hcb. unfold run.
  assert (Hgen : forall w,
    applyOnPredefinedSelect (fst w) = false -> onChange (fst w) = true ->
    (open (snd w) = false -> tempRange (snd w) = value (fst w)) ->
    open (snd (fold_left next inputs w)) = false ->
    tempRange (snd (fold_left next inputs w)) = value (fst (fold_left next inputs w))).
  { induction inputs as [| i inputs IH]; intros w Hf Hc Hinv; cbn [fold_left]; trivial.
    destruct (next_keeps_closed_draft w i Hf Hc Hinv) as (Hf' & Hc' & Hinv').
    now apply IH. }
  apply Hgen; trivial.
Qed.

(** ** The two layouts *)

(** X16. The desktop and the mobile layout show the same things: the
    calendar with its buttons exactly under [showCalendar], the shortcuts
    (as a list, or on mobile beside a calendar as a [Select]) exactly under
    [showPredefinedRanges], and the note exactly when both are off. *)
Theorem layouts_agree (d : Display) :
  (In CalendarPanel (DesktopContent d) <-> showCalendar d = true) /\
  (In CalendarPanel (MobileContent d) <-> showCalendar d = true) /\
  (In ShortcutList (DesktopContent d) <-> showPredefinedRanges d = true) /\
  (In ShortcutList (MobileContent d) \/ In ShortcutSelect (MobileContent d)
   <-> showPredefinedRanges d = true) /\
  (In ShortcutSelect (MobileContent d) <->
   showPredefinedRanges d = true /\ showCalendar d = true) /\
  (In NoContentNote (DesktopContent d) <->
   showPredefinedRanges d = false /\ showCalendar d = false) /\
  (In NoContentNote (MobileContent d) <->
   showPredefinedRanges d = false /\ showCalendar d = false).
Proof.
  unfold DesktopContent, MobileContent.
  destruct (showPredefinedRanges d), (showCalendar d); cbn; finish.
Qed.

(** X17. Without the calendar and without [applyOnPredefinedSelect] the
    caller is never told of a selection: no gesture either layout offers,
    and no opening or closing of the popover, calls [onChange]. *)
Theorem shortcuts_only_without_auto_apply (p : Props) (s : State) (d : Display)
  (part : Part) (e : Event) :
  showCalendar d = false -> applyOnPredefinedSelect p = false ->
  (In part (DesktopContent d) \/ In part (MobileContent d) ->
   offers p s part e = true -> emitted (handler p s e) = []) /\
  (forall newOpen, emitted (handler p s (PopoverOpenChange newOpen)) = []).
Proof.
  intros Hcal Hflag.
  assert (Hpre : forall range, emitted (handlePredefinedRangeSelect p range) = []).
  { intros range. unfold handlePredefinedRangeSelect. rewrite Hflag. reflexivity. }
  split.
  - unfold DesktopContent, MobileContent. rewrite Hcal.
    destruct (showPredefinedRanges d); cbn; intros Hin Hoffer.
    + assert (ShortcutList = part) as <- by tauto.
      destruct e; try discriminate Hoffer. cbn [handler].
      destruct (nth_error (predefinedRanges p) index); [apply Hpre | reflexivity].
    + assert (NoContentNote = part) as <- by tauto.
      destruct e; discriminate Hoffer.
  - intros newOpen. cbn [handler]. unfold handleOpenChange.
    destruct newOpen, (applyOnPredefinedSelect p); reflexivity.
Qed.

(** ** The trigger label, further *)

Lemma monthDayYear_of_Day (t1 t2 : Z) :
  ES.Day t1 = ES.Day t2 -> monthDayYear t1 = monthDayYear t2.
Proof.
  intros Hday. destruct (ESFacts.fields_of_Day _ _ Hday) as (_ & Hy & Hm & Hd).
  unfold monthDayYear. now rewrite Hy, Hm, Hd.
Qed.

(** X18. [formatDateRange] throws exactly when [from] is an Invalid Date,
    or [from] is present and [to] is an Invalid Date; on every other range
    it returns a text. *)
Theorem formatDateRange_throws_iff `{HostTimeZone} (p : Props) (r : option DateRange) :
  ((exists e, formatDateRange p r = Throws e) <->
   from' r = Some InvalidDate \/
   (exists f, from' r = Some f /\ to' r = Some InvalidDate))
  /\
  ((exists text, formatDateRange p r = Returns text) <->
   ~ (from' r = Some InvalidDate \/
      (exists f, from' r = Some f /\ to' r = Some InvalidDate))).
Proof.
  unfold formatDateRange.
  destruct (from' r) as [[| a] |]; destruct (to' r) as [[| b] |];
    cbn [getTime strictEquals DateFns.format bind];
    try destruct (a =? b);
    (split; split;
     [ intros [x Hx]; try discriminate Hx; eauto
     | intros Hc; try (eexists; reflexivity);
       try (destruct Hc as [Hc | (f & Hc1 & Hc2)]; discriminate)
     | intros [x Hx]; try discriminate Hx;
       intros [Hc | (f & Hc1 & Hc2)]; discriminate
     | intros Hc; try (eexists; reflexivity); exfalso; apply Hc; eauto ]).
Qed.

(** X19. The single-date form is kept for one and the same instant: two
    valid bounds on the same local calendar day at different times print
    that day twice, joined by the dash. *)
Theorem formatDateRange_same_day `{HostTimeZone} (p : Props) (r : option DateRange)
  (a b : Z) :
  from' r = Some (TimeValue a) -> to' r = Some (TimeValue b) -> a <> b ->
  calendarDay (TimeValue a) = calendarDay (TimeValue b) ->
  formatDateRange p r
  = Returns (monthDayYear (ES.LocalTime a) ++ " - " ++ monthDayYear (ES.LocalTime a)).
Proof.
  intros Hf Ht Hne Hday. unfold formatDateRange. rewrite Hf, Ht.
  cbn [getTime strictEquals]. apply Z.eqb_neq in Hne. rewrite Hne.
  cbn [calendarDay] in Hday. injection Hday as Hday.
  rewrite !format_LLL_dd_y. cbn [bind].
  now rewrite (monthDayYear_of_Day _ _ Hday).
Qed.

(** ** The default shortcuts, on any clock *)

(** X20. Whatever the clock and the date functions return, each default
    shortcut is found by its own label in the mobile [Select], and once
    chosen it is the highlighted one: the six labels are distinct and every
    default range has both bounds. *)
Theorem default_shortcuts_selectable `{HostTimeZone} `{DateLib} (p : Props) (s : State) :
  Forall
    (fun entry =>
       handleValueChange (withDefaultRanges p) (PredefinedRange.label entry)
       = handlePredefinedRangeSelect (withDefaultRanges p) (PredefinedRange.value entry)
       /\
       isRangeSelected
         (commit s (handlePredefinedRangeSelect (withDefaultRanges p)
                      (PredefinedRange.value entry)))
         (PredefinedRange.value entry) = true)
    defaultPredefinedRanges.
Proof.
  unfold defaultPredefinedRanges.
  repeat (constructor;
          [ split;
            [ reflexivity
            | unfold isRangeSelected; rewrite tempRange_after_predefined;
              unfold isRangeEqual; cbn [from' to' from to PredefinedRange.value];
              now rewrite !String.eqb_refl ]
          | ]).
  constructor.
Qed.

(** ** Further scenarios *)

Module MoreScenarios.
Import Sample.

(** No day lies between 9 January and 5 January. *)
Lemma empty_window_disables_jan5 :
  isDateDisabled emptyWindow jan5_evening = true.
Proof.
  apply (isDateDisabled_empty_window emptyWindow 1704758400000 1704412800000);
    [reflexivity | reflexivity | lia | reflexivity].
Defined.

(** A label the catalog does not have. *)
Lemma unknown_label_is_ignored :
  handleValueChange (props None [firstWeek; february]) "Last year" = skip.
Proof.
  apply handleValueChange_unknown.
  intros entry [<- | [<- | []]]; discriminate.
Defined.

(** The second "First week" cannot be reached from the [Select]. *)
Lemma duplicate_label_picks_first :
  handleValueChange (props None [february; firstWeek; firstWeekAgain]) "First week"
  = handlePredefinedRangeSelect (props None [february; firstWeek; firstWeekAgain])
      (range jan5 jan9).
Proof.
  apply (handleValueChange_first
           (props None [february; firstWeek; firstWeekAgain])
           [february] [firstWeekAgain] firstWeek).
  - reflexivity.
  - intros e [<- | []]. discriminate.
Defined.

Lemma select_february_is_click_1 :
  handler (props None [firstWeek; february]) (opened None) (SelectValueChange "February")
  = handler (props None [firstWeek; february]) (opened None) (PredefinedClick 1).
Proof.
  apply (select_agrees_with_click
           (props None [firstWeek; february]) (opened None) 1 february).
  - cbn. repeat constructor; cbn; intuition discriminate.
  - reflexivity.
Defined.

(** Clear, then Apply, with [clearOnSelect] off. *)
Lemma clear_is_applied_later :
  emitted (handleClear (manual (Some (range jan5 jan9)))) = [] /\
  emitted (handleApply (manual (Some (range jan5 jan9)))
             (commit (opened (Some (range jan5 jan9)))
                (handleClear (manual (Some (range jan5 jan9)))))) = [None].
Proof.
  destruct (clear_then_apply
              (manual (Some (range jan5 jan9))) (opened (Some (range jan5 jan9)))
              eq_refl)
    as (Hclear & Happly & _).
  split; [exact Hclear | exact Happly].
Defined.

(** An incomplete shortcut, with auto-apply off, stops at Apply. *)
Lemma incomplete_shortcut_is_not_applied :
  handleApply (manual None)
    (commit (opened None) (handlePredefinedRangeSelect (manual None) partial))
  = skip.
Proof.
  destruct (shortcut_then_apply (manual None) (opened None) partial eq_refl)
    as (_ & _ & Hdecline).
  exact (Hdecline eq_refl).
Defined.

(** After Apply the effect finds the draft in place. *)
Lemma sync_after_apply :
  commit (commit (opened (Some (range jan5 jan9)))
            (handler (props None []) (opened (Some (range jan5 jan9))) ApplyClick))
         (syncValue (props (Some (range jan5 jan9)) []))
  = mkState false (Some (range jan5 jan9)).
Proof.
  exact (sync_after_emission
           (props None []) (opened (Some (range jan5 jan9))) ApplyClick
           ltac:(discriminate)).
Defined.

(** Open, select, apply; then open again, select, and click outside. *)
Lemma closed_after_apply_and_discard :
  let inputs :=
    [ Gesture (PopoverOpenChange true);
      Gesture (CalendarSelect (Some (range jan5 jan9)));
      Gesture ApplyClick;
      Gesture (PopoverOpenChange true);
      Gesture (CalendarSelect (Some partial));
      Gesture (PopoverOpenChange false) ] in
  open (snd (run (manual None) inputs)) = false /\
  value (fst (run (manual None) inputs)) = Some (range jan5 jan9) /\
  tempRange (snd (run (manual None) inputs)) = value (fst (run (manual None) inputs)).
Proof.
  split; [reflexivity | split; [reflexivity |]].
  apply closed_draft_is_value; reflexivity.
Defined.

(** A list of shortcuts alone, with auto-apply off: a click says nothing. *)
Lemma shortcut_click_is_silent :
  emitted (handler (manual None) (opened None) (PredefinedClick 0)) = [].
Proof.
  apply (proj1 (shortcuts_only_without_auto_apply
                  (manual None) (opened None) (mkDisplay true false)
                  ShortcutList (PredefinedClick 0) eq_refl eq_refl)).
  - left. now left.
  - reflexivity.
Defined.

(** Midnight to the evening of 5 January. *)
Lemma same_day_prints_twice :
  formatDateRange (props None []) (Some (range jan5 jan5_evening))
  = Returns "Jan 05, 2024 - Jan 05, 2024".
Proof.
  exact (formatDateRange_same_day (props None []) (Some (range jan5 jan5_evening))
           1704412800000 1704481200000 eq_refl eq_refl ltac:(discriminate) eq_refl).
Defined.

End MoreScenarios.

(** With [applyOnPredefinedSelect] on, an outside click leaves the draft. *)
Example stale_draft_when_closed :
  let inputs :=
    [ Gesture (PopoverOpenChange true);
      Gesture (CalendarSelect (Some Sample.partial));
      Gesture (PopoverOpenChange false) ] in
  snd (run (Sample.props None []) inputs) = mkState false (Some Sample.partial) /\
  value (fst (run (Sample.props None []) inputs)) = None.
Proof. split; reflexivity. Qed.

(** ** Shortcuts on the same days *)

(** X21. Two shortcuts whose ranges are equal by day are highlighted
    together: whatever the draft, either both are shown as selected or
    neither is. *)
Theorem isRangeSelected_same_days `{HostTimeZone} (s : State) (a b : DateRange) :
  isRangeEqual (Some a) (Some b) = true ->
  isRangeSelected s a = isRangeSelected s b.
Proof.
  unfold isRangeSelected, isRangeEqual. cbn [from' to'].
  destruct (from a) as [fa |], (to a) as [ta |], (from b) as [fb |], (to b) as [tb |];
    try discriminate.
  intros Hab. apply andb_prop in Hab. destruct Hab as [Hf Ht].
  apply String.eqb_eq in Hf, Ht. now rewrite Hf, Ht.
Qed.

(** A draft on 5 to 9 January highlights both spellings of that week. *)
Lemma same_week_highlighted_together :
  isRangeSelected (Sample.opened (Some (Sample.range Sample.jan5 Sample.jan9)))
                  (Sample.range Sample.jan5 Sample.jan9)
  = isRangeSelected (Sample.opened (Some (Sample.range Sample.jan5 Sample.jan9)))
                    (Sample.range Sample.jan5_evening Sample.jan9_noon).
Proof.
  apply isRangeSelected_same_days. vm_compute. reflexivity.
Defined.
